(** * PoDoFo: filter life cycle and OpenSSL service layer

    A shallow embedding of
      - [src/podofo/main/PdfFilter.h]            (class [PdfFilter]);
      - [src/podofo/private/OpenSSLInternal.cpp] (class [OpenSSLMain] and
        namespace [ssl]).

    C++ member functions become functions in a state-and-exception monad:
    a computation takes the object state and returns a result together
    with the state it leaves behind.  A C++ exception does not roll back
    the assignments made before the [throw], so the state is returned on
    the error path too. *)

From Stdlib Require Import ZArith NArith String List Bool Lia.
From Stdlib Require Import Strings.Byte.
Import ListNotations.

Set Implicit Arguments.

Local Open Scope Z_scope.

(* ===================================================================== *)
(** * Results, exceptions and the state monad                              *)
(* ===================================================================== *)

(** [charbuff] and [bufferview] are byte sequences. *)
Definition charbuff := list byte.
Definition bufferview := list byte.

(** The outcome of a call: normal return, or an exception of type [E]. *)
Inductive Result (E A : Type) : Type :=
| Ok (a : A)
| Raise (e : E).

Arguments Ok {E A} a.
Arguments Raise {E A} e.

(** State [S], exceptions [E]. *)
Definition M (E S A : Type) : Type := S -> Result E A * S.

Definition ret {E S A} (a : A) : M E S A := fun s => (Ok a, s).

Definition raise {E S A} (e : E) : M E S A := fun s => (Raise e, s).

Definition bind {E S A B} (m : M E S A) (k : A -> M E S B) : M E S B :=
  fun s =>
    match m s with
    | (Ok a, s') => k a s'
    | (Raise e, s') => (Raise e, s')
    end.

Definition get {E S} : M E S S := fun s => (Ok s, s).

Definition put {E S} (s : S) : M E S unit := fun _ => (Ok tt, s).

Definition modify {E S} (f : S -> S) : M E S unit := fun s => (Ok tt, f s).

(** [try { m } catch (...) { h; throw; }] *)
Definition on_exception {E S A} (m : M E S A) (h : M E S unit) : M E S A :=
  fun s =>
    match m s with
    | (Ok a, s') => (Ok a, s')
    | (Raise e, s') => (Raise e, snd (h s'))
    end.

Declare Scope exn_scope.
Delimit Scope exn_scope with exn.
Notation "x <- m ;; k" := (bind m (fun x => k))
  (at level 61, m at next level, right associativity) : exn_scope.
Notation "m ;;; k" := (bind m (fun _ => k))
  (at level 61, right associativity) : exn_scope.

(* ===================================================================== *)
(** * The error codes the two files raise                                  *)
(* ===================================================================== *)

(** The [PdfErrorCode] values that [OpenSSLInternal.cpp] raises. *)
Inductive PdfErrorCode : Type :=
| InvalidHandle
| OutOfMemory
| InvalidEnumValue
| OpenSSL.

(** What a call in namespace [ssl] can throw: a [PdfError] carrying a code
    ([PODOFO_RAISE_ERROR_INFO]), or a failed [PODOFO_ASSERT]. *)
Inductive Exn : Type :=
| PdfError (code : PdfErrorCode)
| AssertFailed.

(** [enum class PdfHashingAlgorithm] ([PdfDeclarations.h]): the closed
    enumeration the [switch] statements of [GetEVP_Size] and [GetEVP_MD]
    range over. *)
Module PdfHashingAlgorithm.
Inductive t : Type :=
| Unknown
| SHA256
| SHA384
| SHA512.
End PdfHashingAlgorithm.

(* ===================================================================== *)
(** * The external engine's SHA2-256 digest                                *)
(* ===================================================================== *)

(** The hash arithmetic is not PoDoFo code: [computeHash] obtains it from
    OpenSSL through [EVP_DigestInit]/[Update]/[Final].  The engine model
    below needs it to be a function, so it is written out here after
    FIPS 180-4, on 32-bit words held in [N]. *)
Module SHA2_256.
Local Open Scope N_scope.

Definition mask32 : N := 0xffffffff.
Definition add32 (x y : N) : N := N.land (x + y) mask32.
Definition rotr (n x : N) : N :=
  N.lor (N.shiftr x n) (N.land (N.shiftl x (32 - n)) mask32).
Definition not32 (x : N) : N := N.lxor x mask32.

Definition Ch (x y z : N) : N := N.lxor (N.land x y) (N.land (not32 x) z).
Definition Maj (x y z : N) : N :=
  N.lxor (N.land x y) (N.lxor (N.land x z) (N.land y z)).
Definition Sigma0 (x : N) : N := N.lxor (rotr 2 x) (N.lxor (rotr 13 x) (rotr 22 x)).
Definition Sigma1 (x : N) : N := N.lxor (rotr 6 x) (N.lxor (rotr 11 x) (rotr 25 x)).
Definition sigma0 (x : N) : N := N.lxor (rotr 7 x) (N.lxor (rotr 18 x) (N.shiftr x 3)).
Definition sigma1 (x : N) : N := N.lxor (rotr 17 x) (N.lxor (rotr 19 x) (N.shiftr x 10)).

(** The first 64 primes, by trial division. *)
Definition is_prime (p : nat) : bool :=
  forallb (fun d => negb (Nat.eqb (Nat.modulo p d) 0)) (seq 2 (p - 2)).

Definition primes : list N :=
  map N.of_nat (filter is_prime (seq 2 310)).

(** Integer cube root, one bit at a time from bit [i] down. *)
Fixpoint cbrt_bits (i : nat) (x r : N) : N :=
  match i with
  | O => r
  | S i' =>
      let c := r + 2 ^ N.of_nat i' in
      cbrt_bits i' x (if c * c * c <=? x then c else r)
  end.

(** Section 4.2.2: the first 32 bits of the fractional parts of the cube
    roots of the first 64 primes. *)
Definition K : list N :=
  map (fun p => N.land (cbrt_bits 40 (p * 2 ^ 96) 0) mask32) primes.

(** Section 5.3.3: the first 32 bits of the fractional parts of the square
    roots of the first 8 primes. *)
Definition H0 : list N :=
  map (fun p => N.land (N.sqrt (p * 2 ^ 64)) mask32) (firstn 8 primes).

(** Big-endian bytes of a word, most significant first. *)
Fixpoint be_bytes (n : nat) (x : N) : list N :=
  match n with
  | O => []
  | S n' => N.land (N.shiftr x (8 * N.of_nat n')) 0xff :: be_bytes n' x
  end.

Definition be_word (bs : list N) : N :=
  fold_left (fun acc b => N.lor (N.shiftl acc 8) b) bs 0.

(** Message, the bit 1, zero bytes up to 56 mod 64, the bit length. *)
Definition pad (msg : list N) : list N :=
  let len := N.of_nat (length msg) in
  let zeros := N.to_nat ((64 + 55 - len mod 64) mod 64) in
  msg ++ [0x80] ++ repeat 0 zeros ++ be_bytes 8 (8 * len).

Fixpoint chunks (fuel size : nat) (l : list N) : list (list N) :=
  match fuel, l with
  | O, _ | _, [] => []
  | S fuel', _ => firstn size l :: chunks fuel' size (skipn size l)
  end.

(** The message schedule, grown from 16 to 64 words. *)
Fixpoint schedule (n : nat) (W : list N) : list N :=
  match n with
  | O => W
  | S n' =>
      let t := length W in
      let w i := nth (t - i) W 0 in
      schedule n'
        (W ++ [add32 (add32 (sigma1 (w 2%nat)) (w 7%nat))
                     (add32 (sigma0 (w 15%nat)) (w 16%nat))])
  end.

Definition round (v : list N) (kw : N * N) : list N :=
  match v with
  | [a; b; c; d; e; f; g; h] =>
      let T1 := add32 (add32 (add32 h (Sigma1 e)) (add32 (Ch e f g) (fst kw))) (snd kw) in
      let T2 := add32 (Sigma0 a) (Maj a b c) in
      [add32 T1 T2; a; b; c; add32 d T1; e; f; g]
  | _ => v
  end.

Definition compress (H block : list N) : list N :=
  let W := schedule 48 (map be_word (chunks 16 4 block)) in
  let v := fold_left round (combine K W) H in
  map (fun p => add32 (fst p) (snd p)) (combine H v).

Definition digest (msg : list byte) : list byte :=
  let padded := pad (map Byte.to_N msg) in
  let H := fold_left compress (chunks (length padded) 64 padded) H0 in
  map (fun b => match Byte.of_N b with Some x => x | None => x00 end)
      (flat_map (be_bytes 4) H).
End SHA2_256.

(* ===================================================================== *)
(** * The OpenSSL interface the code is written against                    *)
(* ===================================================================== *)

(** Algorithm descriptors ([const EVP_CIPHER*], [const EVP_MD*]) and engine
    handles.  A C pointer that may be null is an [option]. *)
Inductive EVP_CIPHER : Type := rc4 | aes_128_cbc | aes_256_cbc.
Inductive EVP_MD : Type := md5 | sha1 | sha2_256 | sha2_384 | sha2_512.

Definition OSSL_LIB_CTX : Type := nat.
Definition OSSL_PROVIDER : Type := string.

(** A digest context: the algorithm it was initialised with and the bytes
    absorbed so far. *)
Record EVP_MD_CTX : Type := mkMdCtx {
  ctx_md : option EVP_MD;
  ctx_data : list byte
}.

(** An RSA key: modulus and private exponent. *)
Record RSA : Type := mkRSA {
  rsa_n : N;
  rsa_d : N
}.

(** [EVP_PKEY*] as [RsaRawEncrypt] receives it: the handle of an RSA key. *)
Record EVP_PKEY : Type := mkPKEY {
  pkey_rsa : RSA
}.

Definition RSA_PKCS1_PADDING : Z := 1.

(** The library calls whose outcome the code cannot know in advance.  Each
    field is one OpenSSL function; a status is the [int] it returns. *)
Record Libcrypto : Type := mkLibcrypto {
  OPENSSL_VERSION_MAJOR : N;
  (* OpenSSL >= 3 *)
  OSSL_LIB_CTX_new : option OSSL_LIB_CTX;
  OSSL_PROVIDER_load : OSSL_LIB_CTX -> string -> option OSSL_PROVIDER;
  EVP_CIPHER_fetch : OSSL_LIB_CTX -> string -> string -> option EVP_CIPHER;
  EVP_MD_fetch : OSSL_LIB_CTX -> string -> string -> option EVP_MD;
  (* OpenSSL < 3: addresses of static method tables, never null *)
  EVP_rc4 : EVP_CIPHER;
  EVP_aes_128_cbc : EVP_CIPHER;
  EVP_aes_256_cbc : EVP_CIPHER;
  EVP_md5 : EVP_MD;
  EVP_sha1 : EVP_MD;
  EVP_sha256 : EVP_MD;
  EVP_sha384 : EVP_MD;
  EVP_sha512 : EVP_MD;
  (* digests: status and the context (or the digest) left behind *)
  EVP_MD_CTX_new : option EVP_MD_CTX;
  EVP_DigestInit : option EVP_MD_CTX -> option EVP_MD -> Z * option EVP_MD_CTX;
  EVP_DigestUpdate : option EVP_MD_CTX -> list byte -> Z * option EVP_MD_CTX;
  EVP_DigestFinal : option EVP_MD_CTX -> Z * list byte;
  (* RSA: [flen], [from], key, padding; status and the bytes stored at [to] *)
  RSA_private_encrypt : Z -> list byte -> RSA -> Z -> Z * list byte
}.

(** [EVP_PKEY_get1_RSA] and [RSA_size]: the key inside the handle and the
    byte length of its modulus. *)
Definition EVP_PKEY_get1_RSA (pkey : EVP_PKEY) : RSA := pkey_rsa pkey.

Definition RSA_size (rsa : RSA) : Z := Z.of_N ((N.size (rsa_n rsa) + 7) / 8).

(** The C conversion [(int)x] of a [size_t]. *)
Definition to_int (x : Z) : Z := (x + 2 ^ 31) mod 2 ^ 32 - 2 ^ 31.

(** [charbuff::resize(n)]: truncate, or extend with zero bytes. *)
Definition resize (n : nat) (buf : charbuff) : charbuff :=
  firstn n buf ++ repeat x00 (n - length buf).

(** What a buffer holds after a callee stored [bytes] through its [data()]
    pointer: storing does not change the buffer's size. *)
Definition store (buf : charbuff) (bytes : list byte) : charbuff :=
  firstn (length buf) (bytes ++ skipn (length bytes) buf).

(* ===================================================================== *)
(** * class OpenSSLMain                                                    *)
(* ===================================================================== *)

Module OpenSSLMain.

Record t : Type := mk {
  m_Rc4 : option EVP_CIPHER;
  m_Aes128 : option EVP_CIPHER;
  m_Aes256 : option EVP_CIPHER;
  m_MD5 : option EVP_MD;
  m_SHA1 : option EVP_MD;
  m_SHA256 : option EVP_MD;
  m_SHA384 : option EVP_MD;
  m_SHA512 : option EVP_MD;
  m_libCtx : option OSSL_LIB_CTX;
  m_legacyProvider : option OSSL_PROVIDER;
  m_defaultProvider : option OSSL_PROVIDER
}.

(** [OpenSSLMain::OpenSSLMain()]: every member value-initialised. *)
Definition ctor : t :=
  mk None None None None None None None None None None None.

(** Assignment to one member. *)
Definition set_Rc4 v s :=
  mk v (m_Aes128 s) (m_Aes256 s) (m_MD5 s) (m_SHA1 s) (m_SHA256 s)
     (m_SHA384 s) (m_SHA512 s) (m_libCtx s) (m_legacyProvider s) (m_defaultProvider s).
Definition set_Aes128 v s :=
  mk (m_Rc4 s) v (m_Aes256 s) (m_MD5 s) (m_SHA1 s) (m_SHA256 s)
     (m_SHA384 s) (m_SHA512 s) (m_libCtx s) (m_legacyProvider s) (m_defaultProvider s).
Definition set_Aes256 v s :=
  mk (m_Rc4 s) (m_Aes128 s) v (m_MD5 s) (m_SHA1 s) (m_SHA256 s)
     (m_SHA384 s) (m_SHA512 s) (m_libCtx s) (m_legacyProvider s) (m_defaultProvider s).
Definition set_MD5 v s :=
  mk (m_Rc4 s) (m_Aes128 s) (m_Aes256 s) v (m_SHA1 s) (m_SHA256 s)
     (m_SHA384 s) (m_SHA512 s) (m_libCtx s) (m_legacyProvider s) (m_defaultProvider s).
Definition set_SHA1 v s :=
  mk (m_Rc4 s) (m_Aes128 s) (m_Aes256 s) (m_MD5 s) v (m_SHA256 s)
     (m_SHA384 s) (m_SHA512 s) (m_libCtx s) (m_legacyProvider s) (m_defaultProvider s).
Definition set_SHA256 v s :=
  mk (m_Rc4 s) (m_Aes128 s) (m_Aes256 s) (m_MD5 s) (m_SHA1 s) v
     (m_SHA384 s) (m_SHA512 s) (m_libCtx s) (m_legacyProvider s) (m_defaultProvider s).
Definition set_SHA384 v s :=
  mk (m_Rc4 s) (m_Aes128 s) (m_Aes256 s) (m_MD5 s) (m_SHA1 s) (m_SHA256 s)
     v (m_SHA512 s) (m_libCtx s) (m_legacyProvider s) (m_defaultProvider s).
Definition set_SHA512 v s :=
  mk (m_Rc4 s) (m_Aes128 s) (m_Aes256 s) (m_MD5 s) (m_SHA1 s) (m_SHA256 s)
     (m_SHA384 s) v (m_libCtx s) (m_legacyProvider s) (m_defaultProvider s).
Definition set_libCtx v s :=
  mk (m_Rc4 s) (m_Aes128 s) (m_Aes256 s) (m_MD5 s) (m_SHA1 s) (m_SHA256 s)
     (m_SHA384 s) (m_SHA512 s) v (m_legacyProvider s) (m_defaultProvider s).
Definition set_legacyProvider v s :=
  mk (m_Rc4 s) (m_Aes128 s) (m_Aes256 s) (m_MD5 s) (m_SHA1 s) (m_SHA256 s)
     (m_SHA384 s) (m_SHA512 s) (m_libCtx s) v (m_defaultProvider s).
Definition set_defaultProvider v s :=
  mk (m_Rc4 s) (m_Aes128 s) (m_Aes256 s) (m_MD5 s) (m_SHA1 s) (m_SHA256 s)
     (m_SHA384 s) (m_SHA512 s) (m_libCtx s) (m_legacyProvider s) v.

(** Modelled from the spec: the macro [PODOFO_ASSERT] is defined in
    [PdfDeclarationsPrivate.h], which is not under src/.  The spec has
    initialisation run at most once: a call that finds the condition
    false goes no further, which is an exception here. *)
Definition PODOFO_ASSERT (cond : bool) : M Exn t unit :=
  if cond then ret tt else raise AssertFailed.

Definition is_null {A} (p : option A) : bool :=
  match p with None => true | Some _ => false end.

Local Open Scope exn_scope.
Local Open Scope string_scope.

(** [void OpenSSLMain::Init()] *)
Definition Init (ssl : Libcrypto) : M Exn t unit :=
  s <- get ;;
  PODOFO_ASSERT (is_null (m_Rc4 s)) ;;;
  if (3 <=? OPENSSL_VERSION_MAJOR ssl)%N then
    modify (set_libCtx (OSSL_LIB_CTX_new ssl)) ;;;
    s <- get ;;
    match m_libCtx s with
    | None => raise (PdfError InvalidHandle)
    | Some libCtx =>
        modify (set_legacyProvider (OSSL_PROVIDER_load ssl libCtx "legacy")) ;;;
        s <- get ;;
        if is_null (m_legacyProvider s) then raise (PdfError InvalidHandle) else
        modify (set_defaultProvider (OSSL_PROVIDER_load ssl libCtx "default")) ;;;
        s <- get ;;
        if is_null (m_defaultProvider s) then raise (PdfError InvalidHandle) else
        modify (set_Rc4 (EVP_CIPHER_fetch ssl libCtx "RC4" "provider=legacy")) ;;;
        modify (set_Aes128 (EVP_CIPHER_fetch ssl libCtx "AES-128-CBC" "provider=default")) ;;;
        modify (set_Aes256 (EVP_CIPHER_fetch ssl libCtx "AES-256-CBC" "provider=default")) ;;;
        modify (set_MD5 (EVP_MD_fetch ssl libCtx "MD5" "provider=default")) ;;;
        modify (set_SHA1 (EVP_MD_fetch ssl libCtx "SHA1" "provider=default")) ;;;
        modify (set_SHA256 (EVP_MD_fetch ssl libCtx "SHA2-256" "provider=default")) ;;;
        modify (set_SHA384 (EVP_MD_fetch ssl libCtx "SHA2-384" "provider=default")) ;;;
        modify (set_SHA512 (EVP_MD_fetch ssl libCtx "SHA2-512" "provider=default"))
    end
  else
    modify (set_Rc4 (Some (EVP_rc4 ssl))) ;;;
    modify (set_Aes128 (Some (EVP_aes_128_cbc ssl))) ;;;
    modify (set_Aes256 (Some (EVP_aes_256_cbc ssl))) ;;;
    modify (set_MD5 (Some (EVP_md5 ssl))) ;;;
    modify (set_SHA1 (Some (EVP_sha1 ssl))) ;;;
    modify (set_SHA256 (Some (EVP_sha256 ssl))) ;;;
    modify (set_SHA384 (Some (EVP_sha384 ssl))) ;;;
    modify (set_SHA512 (Some (EVP_sha512 ssl))).




End OpenSSLMain.

(* ===================================================================== *)
(** * namespace ssl                                                        *)
(* ===================================================================== *)

Module ssl.

Local Open Scope exn_scope.

(** The process-wide state: the global [s_SSL] and whether its one-time
    initialisation has completed. *)
Record Process : Type := mkProcess {
  s_SSL : OpenSSLMain.t;
  s_SSL_ready : bool
}.

(** Static initialisation of the process. *)
Definition startup : Process := mkProcess OpenSSLMain.ctor false.

(** Run a member function of [s_SSL]. *)
Definition on_s_SSL {A} (m : M Exn OpenSSLMain.t A) : M Exn Process A :=
  fun p =>
    let (r, s') := m (s_SSL p) in
    (r, mkProcess s' (s_SSL_ready p)).

(** Modelled from the spec: [ssl::Init()] is defined in [PdfCommon.cpp],
    which is not under src/.  Section 4.4: idempotent and lazy; the first
    caller performs the engine setup and handle resolution, later callers
    observe the already-initialised state.  A setup that signals an error
    has not completed, so a later call tries again (section 7). *)
Definition Init (lib : Libcrypto) : M Exn Process unit :=
  p <- get ;;
  if s_SSL_ready p then ret tt
  else
    on_s_SSL (OpenSSLMain.Init lib) ;;;
    modify (fun p => mkProcess (s_SSL p) true).

(** The accessors: [ssl::Init(); return s_SSL.GetXxx();] *)
Definition Rc4 (lib : Libcrypto) : M Exn Process (option EVP_CIPHER) :=
  Init lib ;;; p <- get ;; ret (OpenSSLMain.m_Rc4 (s_SSL p)).

Definition Aes128 (lib : Libcrypto) : M Exn Process (option EVP_CIPHER) :=
  Init lib ;;; p <- get ;; ret (OpenSSLMain.m_Aes128 (s_SSL p)).

Definition Aes256 (lib : Libcrypto) : M Exn Process (option EVP_CIPHER) :=
  Init lib ;;; p <- get ;; ret (OpenSSLMain.m_Aes256 (s_SSL p)).

Definition MD5 (lib : Libcrypto) : M Exn Process (option EVP_MD) :=
  Init lib ;;; p <- get ;; ret (OpenSSLMain.m_MD5 (s_SSL p)).

Definition SHA1 (lib : Libcrypto) : M Exn Process (option EVP_MD) :=
  Init lib ;;; p <- get ;; ret (OpenSSLMain.m_SHA1 (s_SSL p)).

Definition SHA256 (lib : Libcrypto) : M Exn Process (option EVP_MD) :=
  Init lib ;;; p <- get ;; ret (OpenSSLMain.m_SHA256 (s_SSL p)).

Definition SHA384 (lib : Libcrypto) : M Exn Process (option EVP_MD) :=
  Init lib ;;; p <- get ;; ret (OpenSSLMain.m_SHA384 (s_SSL p)).

Definition SHA512 (lib : Libcrypto) : M Exn Process (option EVP_MD) :=
  Init lib ;;; p <- get ;; ret (OpenSSLMain.m_SHA512 (s_SSL p)).

(** [unsigned ssl::GetEVP_Size(PdfHashingAlgorithm hashing)] *)
Definition GetEVP_Size {S} (hashing : PdfHashingAlgorithm.t) : M Exn S Z :=
  match hashing with
  | PdfHashingAlgorithm.SHA256 => ret 32
  | PdfHashingAlgorithm.SHA384 => ret 48
  | PdfHashingAlgorithm.SHA512 => ret 64
  | PdfHashingAlgorithm.Unknown => raise (PdfError InvalidEnumValue)
  end.

(** [const EVP_MD* ssl::GetEVP_MD(PdfHashingAlgorithm hashing)] *)
Definition GetEVP_MD (lib : Libcrypto) (hashing : PdfHashingAlgorithm.t)
  : M Exn Process (option EVP_MD) :=
  match hashing with
  | PdfHashingAlgorithm.SHA256 => SHA256 lib
  | PdfHashingAlgorithm.SHA384 => SHA384 lib
  | PdfHashingAlgorithm.SHA512 => SHA512 lib
  | PdfHashingAlgorithm.Unknown => raise (PdfError InvalidEnumValue)
  end.

(** [static void computeHash(data, type, hash, length)]: the digest is
    returned as the [length] bytes stored in [hash]. *)
Definition computeHash {S} (lib : Libcrypto) (data : bufferview)
    (type : option EVP_MD) : M Exn S charbuff :=
  let ctx := EVP_MD_CTX_new lib in
  let (rc, ctx) := EVP_DigestInit lib ctx type in
  if rc =? 0 then raise (PdfError OpenSSL) else
  let (rc, ctx) := EVP_DigestUpdate lib ctx data in
  if rc =? 0 then raise (PdfError OpenSSL) else
  let (rc, hash) := EVP_DigestFinal lib ctx in
  if rc =? 0 then raise (PdfError OpenSSL) else
  ret hash.

(** [charbuff ssl::ComputeHash(data, hashing)] *)
Definition ComputeHash (lib : Libcrypto) (data : bufferview)
    (hashing : PdfHashingAlgorithm.t) : M Exn Process charbuff :=
  type <- GetEVP_MD lib hashing ;;
  computeHash lib data type.

(** [charbuff ssl::ComputeMD5(data)], [charbuff ssl::ComputeSHA1(data)] *)
Definition ComputeMD5 (lib : Libcrypto) (data : bufferview)
  : M Exn Process charbuff :=
  type <- MD5 lib ;; computeHash lib data type.

Definition ComputeSHA1 (lib : Libcrypto) (data : bufferview)
  : M Exn Process charbuff :=
  type <- SHA1 lib ;; computeHash lib data type.

(** [void ssl::RsaRawEncrypt(input, output, pkey)]: [output] is passed by
    reference; the buffer it holds on return is the result. *)
Definition RsaRawEncrypt {S} (lib : Libcrypto) (input : bufferview)
    (output : charbuff) (pkey : EVP_PKEY) : M Exn S charbuff :=
  let rsa := EVP_PKEY_get1_RSA pkey in
  let rsalen := RSA_size rsa in
  let output := resize (Z.to_nat rsalen) output in
  let (_, stored) :=
    RSA_private_encrypt lib (to_int (Z.of_nat (length input))) input rsa
                        RSA_PKCS1_PADDING in
  ret (store output stored).

End ssl.

(* ===================================================================== *)
(** * Engines to run the code against                                      *)
(* ===================================================================== *)

(** [openssl major other]: a libcrypto of major version [major] in which
    the library context, both providers and every algorithm resolve.  Its
    SHA2-256 is [SHA2_256.digest]; the remaining digests are [other].  Its
    RSA private-key operation is PKCS #1 v1.5 block type 1 followed by the
    modular exponentiation, and fails on data too large for the modulus. *)
Module Engine.

Local Open Scope string_scope.

Definition cipher_named (name props : string) : option EVP_CIPHER :=
if String.eqb name "RC4" && String.eqb props "provider=legacy" then Some rc4
else if String.eqb name "AES-128-CBC" && String.eqb props "provider=default" then Some aes_128_cbc
else if String.eqb name "AES-256-CBC" && String.eqb props "provider=default" then Some aes_256_cbc
else None.

Definition md_named (name props : string) : option EVP_MD :=
if negb (String.eqb props "provider=default") then None
else if String.eqb name "MD5" then Some md5
else if String.eqb name "SHA1" then Some sha1
else if String.eqb name "SHA2-256" then Some sha2_256
else if String.eqb name "SHA2-384" then Some sha2_384
else if String.eqb name "SHA2-512" then Some sha2_512
else None.

Definition provider_named (name : string) : option OSSL_PROVIDER :=
if String.eqb name "legacy" || String.eqb name "default" then Some name else None.

Definition digest_init (ctx : option EVP_MD_CTX) (type : option EVP_MD)
: Z * option EVP_MD_CTX :=
match ctx, type with
| Some _, Some md => (1, Some (mkMdCtx (Some md) []))
| _, _ => (0, ctx)
end.

Definition digest_update (ctx : option EVP_MD_CTX) (data : list byte)
: Z * option EVP_MD_CTX :=
match ctx with
| Some (mkMdCtx (Some md) absorbed) => (1, Some (mkMdCtx (Some md) (absorbed ++ data)))
| _ => (0, ctx)
end.

Definition digest_final (other : EVP_MD -> list byte -> list byte)
  (ctx : option EVP_MD_CTX) : Z * list byte :=
match ctx with
| Some (mkMdCtx (Some sha2_256) absorbed) => (1, SHA2_256.digest absorbed)
| Some (mkMdCtx (Some md) absorbed) => (1, other md absorbed)
| _ => (0, [])
end.

Definition os2ip (bs : list byte) : N :=
fold_left (fun acc b => acc * 256 + Byte.to_N b)%N bs 0%N.

Fixpoint i2osp (len : nat) (x : N) : list byte :=
match len with
| O => []
| S len' =>
    match Byte.of_N ((x / 256 ^ N.of_nat len') mod 256)%N with
    | Some b => b :: i2osp len' x
    | None => x00 :: i2osp len' x
    end
end.

Fixpoint powmod_pos (b : N) (e : positive) (n : N) : N :=
match e with
| xH => (b mod n)%N
| xO e' => let r := powmod_pos b e' n in ((r * r) mod n)%N
| xI e' => let r := powmod_pos b e' n in ((r * r * b) mod n)%N
end.

Definition powmod (b e n : N) : N :=
match e with
| N0 => (1 mod n)%N
| Npos p => powmod_pos b p n
end.

Definition private_encrypt (flen : Z) (from : list byte) (rsa : RSA)
  (padding : Z) : Z * list byte :=
let k := RSA_size rsa in
if ((padding =? RSA_PKCS1_PADDING) && (0 <=? flen) && (flen <=? k - 11))%Z then
  let em := ([x00; x01] ++ repeat xff (Z.to_nat (k - 3 - flen))
                        ++ [x00] ++ firstn (Z.to_nat flen) from)%list in
  (k, i2osp (Z.to_nat k) (powmod (os2ip em) (rsa_d rsa) (rsa_n rsa)))
else (-1, []).

Definition openssl (major : N) (other : EVP_MD -> list byte -> list byte)
: Libcrypto :=
{| OPENSSL_VERSION_MAJOR := major;
   OSSL_LIB_CTX_new := Some 1%nat;
   OSSL_PROVIDER_load := fun _ name => provider_named name;
   EVP_CIPHER_fetch := fun _ name props => cipher_named name props;
   EVP_MD_fetch := fun _ name props => md_named name props;
   EVP_rc4 := rc4;
   EVP_aes_128_cbc := aes_128_cbc;
   EVP_aes_256_cbc := aes_256_cbc;
   EVP_md5 := md5;
   EVP_sha1 := sha1;
   EVP_sha256 := sha2_256;
   EVP_sha384 := sha2_384;
   EVP_sha512 := sha2_512;
   EVP_MD_CTX_new := Some (mkMdCtx None []);
   EVP_DigestInit := digest_init;
   EVP_DigestUpdate := digest_update;
   EVP_DigestFinal := digest_final other;
   RSA_private_encrypt := private_encrypt |}.


(** A 127-bit RSA key (16-byte modulus), public exponent 65537. *)
Definition toy_key : EVP_PKEY :=
mkPKEY (mkRSA 0x54d1c863effc8f8715f4aa355f57b857
              0x40289320ed3628c651e1e31f955ab011).

End Engine.

(** The SHA-256 digest of the empty message, as published. *)
Definition sha256_of_empty : charbuff :=
  [xe3; xb0; xc4; x42; x98; xfc; x1c; x14; x9a; xfb; xf4; xc8; x99; x6f; xb9; x24;
   x27; xae; x41; xe4; x64; x9b; x93; x4c; xa4; x95; x99; x1b; x78; x52; xb8; x55].

(* ===================================================================== *)
(** * class PdfFilter                                                      *)
(* ===================================================================== *)

(** [PdfFilter.h] declares the class: the six virtual hooks
    ([BeginEncodeImpl] ... [EndDecodeImpl]), the wrappers around them and
    the single data member [m_OutputStream].  The wrappers' bodies are in
    [PdfFilter.cpp]. *)
Module PdfFilter.

Local Open Scope exn_scope.

(** The error kinds of section 7 of the specification. *)
Inductive ErrorKind : Type :=
| UsageError
| DecodeError
| CryptoEngineError
| ConfigurationError.

(** An [OutputStream&] handed to [BeginEncode]/[BeginDecode]: the identity
    of a sink owned by the caller. *)
Definition OutputStream : Type := nat.

(** The decode-parameters dictionary, an opaque key-to-value lookup. *)
Definition PdfDictionary : Type := list (string * Z).

(** The life cycle of section 4.1.  [Active] carries the bound sink. *)
Inductive Lifecycle : Type :=
| Idle
| Active (sink : OutputStream)
| Failed.

Inductive Hook : Type :=
| hBeginEncode | hEncodeBlock | hEndEncode
| hBeginDecode | hDecodeBlock | hEndDecode.

(** What can be observed of a filter from outside: which virtual
    implementation ran, and which bytes reached which sink. *)
Inductive Event : Type :=
| HookCalled (h : Hook)
| Written (sink : OutputStream) (bytes : list byte).

(** What one run of a virtual implementation does: the codec state it
    leaves, the bytes it wrote to [GetStream()], and the error it threw,
    if any. *)
Record Outcome (C : Type) : Type := mkOutcome {
  next : C;
  written : list byte;
  thrown : option ErrorKind
}.

(** The virtual interface, over a codec state [C]. *)
Record Codec (C : Type) : Type := mkCodec {
  BeginEncodeImpl : C -> Outcome C;
  EncodeBlockImpl : bufferview -> C -> Outcome C;
  EndEncodeImpl : C -> Outcome C;
  BeginDecodeImpl : option PdfDictionary -> C -> Outcome C;
  DecodeBlockImpl : bufferview -> C -> Outcome C;
  EndDecodeImpl : C -> Outcome C
}.

(** A filter object, with the record of what it has done so far. *)
Record t (C : Type) : Type := mk {
  lifecycle : Lifecycle;
  codec : C;
  events : list Event
}.

(** [OutputStream* m_OutputStream]: set exactly while a sink is bound. *)
Definition m_OutputStream {C} (f : t C) : option OutputStream :=
  match lifecycle f with
  | Active sink => Some sink
  | _ => None
  end.

(** [PdfFilter::PdfFilter()] *)
Definition ctor {C} (c : C) : t C := mk Idle c [].

Definition set_lifecycle {C} (l : Lifecycle) (f : t C) : t C :=
  mk l (codec f) (events f).

Section Engine.

Variable C : Type.
Variable cdc : Codec C.

(** One virtual call on the bound sink. *)
Definition call (h : Hook) (impl : C -> Outcome C) (sink : OutputStream)
  : M ErrorKind (t C) unit :=
  fun f =>
    let o := impl (codec f) in
    let f' := mk (lifecycle f) (next o)
                 (events f ++ [HookCalled h; Written sink (written o)]) in
    match thrown o with
    | None => (Ok tt, f')
    | Some e => (Raise e, f')
    end.

(** Modelled from the spec: [PdfFilter::FailEncodeDecode()], whose body is
    in [PdfFilter.cpp], not under src/.  Section 4.1, [Fail()]: unbinds the
    sink without invoking further Codec hooks, transitions to [Failed]. *)
Definition FailEncodeDecode : M ErrorKind (t C) unit :=
  modify (set_lifecycle Failed).

(** Modelled from the spec: [PdfFilter::BeginEncode(output)], whose body is
    in [PdfFilter.cpp], not under src/.  Section 4.1: a usage error while
    already [Active]; otherwise binds the sink, invokes the Codec's begin
    hook and moves to [Active]; a [Failed] engine is re-armed by it.  An
    error of the hook latches [Failed] (section 7). *)
Definition BeginEncode (output : OutputStream) : M ErrorKind (t C) unit :=
  f <- get ;;
  match lifecycle f with
  | Active _ => raise UsageError
  | Idle | Failed =>
      modify (set_lifecycle (Active output)) ;;;
      on_exception (call hBeginEncode (BeginEncodeImpl cdc) output)
                   FailEncodeDecode
  end.

(** Modelled from the spec: [PdfFilter::BeginDecode(output, decodeParms)],
    whose body is in [PdfFilter.cpp], not under src/.  Section 4.1, as
    [BeginEncode], with the decode parameters passed to the hook. *)
Definition BeginDecode (output : OutputStream)
    (decodeParms : option PdfDictionary) : M ErrorKind (t C) unit :=
  f <- get ;;
  match lifecycle f with
  | Active _ => raise UsageError
  | Idle | Failed =>
      modify (set_lifecycle (Active output)) ;;;
      on_exception (call hBeginDecode (BeginDecodeImpl cdc decodeParms) output)
                   FailEncodeDecode
  end.

(** Modelled from the spec: [PdfFilter::EncodeBlock(view)], whose body is
    in [PdfFilter.cpp], not under src/.  Section 4.1: valid only in
    [Active], where it forwards the span to the Codec's block hook; a usage
    error in [Idle] and [Failed]. *)
Definition EncodeBlock (view : bufferview) : M ErrorKind (t C) unit :=
  f <- get ;;
  match lifecycle f with
  | Active sink =>
      on_exception (call hEncodeBlock (EncodeBlockImpl cdc view) sink)
                   FailEncodeDecode
  | Idle | Failed => raise UsageError
  end.

(** Modelled from the spec: [PdfFilter::DecodeBlock(view)], whose body is
    in [PdfFilter.cpp], not under src/.  Section 4.1, as [EncodeBlock]. *)
Definition DecodeBlock (view : bufferview) : M ErrorKind (t C) unit :=
  f <- get ;;
  match lifecycle f with
  | Active sink =>
      on_exception (call hDecodeBlock (DecodeBlockImpl cdc view) sink)
                   FailEncodeDecode
  | Idle | Failed => raise UsageError
  end.

(** Modelled from the spec: [PdfFilter::EndEncode()], whose body is in
    [PdfFilter.cpp], not under src/.  Section 4.1: valid only in [Active];
    invokes the Codec's end hook, unbinds the sink, returns to [Idle]. *)
Definition EndEncode : M ErrorKind (t C) unit :=
  f <- get ;;
  match lifecycle f with
  | Active sink =>
      on_exception (call hEndEncode (EndEncodeImpl cdc) sink)
                   FailEncodeDecode ;;;
      modify (set_lifecycle Idle)
  | Idle | Failed => raise UsageError
  end.

(** Modelled from the spec: [PdfFilter::EndDecode()], whose body is in
    [PdfFilter.cpp], not under src/.  Section 4.1, as [EndEncode]. *)
Definition EndDecode : M ErrorKind (t C) unit :=
  f <- get ;;
  match lifecycle f with
  | Active sink =>
      on_exception (call hEndDecode (EndDecodeImpl cdc) sink)
                   FailEncodeDecode ;;;
      modify (set_lifecycle Idle)
  | Idle | Failed => raise UsageError
  end.

(** The [Block] and [End] calls a caller can make between two [Begin]s. *)
Inductive Request : Type :=
| ReqEncodeBlock (view : bufferview)
| ReqDecodeBlock (view : bufferview)
| ReqEndEncode
| ReqEndDecode.

Definition perform (r : Request) : M ErrorKind (t C) unit :=
  match r with
  | ReqEncodeBlock view => EncodeBlock view
  | ReqDecodeBlock view => DecodeBlock view
  | ReqEndEncode => EndEncode
  | ReqEndDecode => EndDecode
  end.

(** A caller that goes on after every exception: the outcome of each
    request in turn, and the filter left at the end. *)
Fixpoint perform_all (rs : list Request) (f : t C)
  : list (Result ErrorKind unit) * t C :=
  match rs with
  | [] => ([], f)
  | r :: rs' =>
      let (res, f') := perform r f in
      let (ress, f'') := perform_all rs' f' in
      (res :: ress, f'')
  end.

(** What a [Begin] call that got past the life-cycle test has done: it ran
    the begin hook [h] once, on the sink [output], with outcome [o]; the
    engine is [Active] on [output] if the hook returned, and [Failed], with
    the hook's error passed on, if it threw. *)
Definition begins (h : Hook) (o : Outcome C) (output : OutputStream)
    (f : t C) (res : Result ErrorKind unit * t C) : Prop :=
  codec (snd res) = next o /\
  events (snd res) = events f ++ [HookCalled h; Written output (written o)] /\
  match thrown o with
  | None => fst res = Ok tt /\ lifecycle (snd res) = Active output
  | Some e => fst res = Raise e /\ lifecycle (snd res) = Failed
  end.

End Engine.

(** The bytes a sink has received. *)
Fixpoint received (sink : OutputStream) (evs : list Event) : list byte :=
  match evs with
  | [] => []
  | Written s bytes :: evs' =>
      if Nat.eqb s sink then bytes ++ received sink evs' else received sink evs'
  | HookCalled _ :: evs' => received sink evs'
  end.

(** A codec to run the engine with: it passes its input through and
    counts the blocks it has seen since the last begin. *)
Definition copy_codec : Codec nat :=
  {| BeginEncodeImpl := fun _ => mkOutcome 0%nat [] None;
     EncodeBlockImpl := fun view n => mkOutcome (S n) view None;
     EndEncodeImpl := fun n => mkOutcome n [] None;
     BeginDecodeImpl := fun _ _ => mkOutcome 0%nat [] None;
     DecodeBlockImpl := fun view n => mkOutcome (S n) view None;
     EndDecodeImpl := fun n => mkOutcome n [] None |}.

End PdfFilter.

(* ===================================================================== *)
(** * RsaRawEncrypt on every key handle and every input length             *)
(* ===================================================================== *)

(** An [EVP_PKEY*] as a caller can pass it: the handle of an RSA key, or of
    a key of another type, for which [EVP_PKEY_get1_RSA] returns a null
    pointer. *)
Inductive KeyHandle : Type :=
| RsaKey (pkey : EVP_PKEY)
| OtherKey.

Definition get1_RSA (key : KeyHandle) : option RSA :=
  match key with
  | RsaKey pkey => Some (EVP_PKEY_get1_RSA pkey)
  | OtherKey => None
  end.

(** The body of [ssl::RsaRawEncrypt] once more, with the two places at
    which it enters libcrypto outside that library's contract.  [None]:
    the call does not come back.  The result of [EVP_PKEY_get1_RSA] goes
    to [RSA_size] unchecked, which reads through it; and [(int)input.size()]
    is negative from 2^31 bytes on, a length with which the padding inside
    [RSA_private_encrypt] fills memory it does not own. *)
Definition RsaRawEncrypt_exec {S} (lib : Libcrypto) (input : bufferview)
    (output : charbuff) (key : KeyHandle) (s : S)
  : option (Result Exn charbuff * S) :=
  match get1_RSA key with
  | None => None
  | Some rsa =>
      let rsalen := RSA_size rsa in
      let output := resize (Z.to_nat rsalen) output in
      let flen := to_int (Z.of_nat (length input)) in
      if flen <? 0 then None
      else
        let (_, stored) :=
          RSA_private_encrypt lib flen input rsa RSA_PKCS1_PADDING in
        Some (Ok (store output stored), s)
  end.

(* ===================================================================== *)
(** * Engines that lack a provider or an algorithm                         *)
(* ===================================================================== *)

(** OpenSSL 3 in which the legacy provider cannot be loaded (a libcrypto
    installed without its legacy module); everything else as in
    [Engine.openssl]. *)
Definition openssl3_no_legacy (other : EVP_MD -> list byte -> list byte)
  : Libcrypto :=
  let base := Engine.openssl 3 other in
  {| OPENSSL_VERSION_MAJOR := 3;
     OSSL_LIB_CTX_new := OSSL_LIB_CTX_new base;
     OSSL_PROVIDER_load := fun ctx name =>
       if String.eqb name "legacy" then None else OSSL_PROVIDER_load base ctx name;
     EVP_CIPHER_fetch := EVP_CIPHER_fetch base;
     EVP_MD_fetch := EVP_MD_fetch base;
     EVP_rc4 := EVP_rc4 base;
     EVP_aes_128_cbc := EVP_aes_128_cbc base;
     EVP_aes_256_cbc := EVP_aes_256_cbc base;
     EVP_md5 := EVP_md5 base;
     EVP_sha1 := EVP_sha1 base;
     EVP_sha256 := EVP_sha256 base;
     EVP_sha384 := EVP_sha384 base;
     EVP_sha512 := EVP_sha512 base;
     EVP_MD_CTX_new := EVP_MD_CTX_new base;
     EVP_DigestInit := EVP_DigestInit base;
     EVP_DigestUpdate := EVP_DigestUpdate base;
     EVP_DigestFinal := EVP_DigestFinal base;
     RSA_private_encrypt := RSA_private_encrypt base |}.

(** OpenSSL 3 whose providers load but do not offer the algorithm named
    [missing]: fetching it yields a null pointer. *)
Definition openssl3_without (missing : string)
    (other : EVP_MD -> list byte -> list byte) : Libcrypto :=
  let base := Engine.openssl 3 other in
  {| OPENSSL_VERSION_MAJOR := 3;
     OSSL_LIB_CTX_new := OSSL_LIB_CTX_new base;
     OSSL_PROVIDER_load := OSSL_PROVIDER_load base;
     EVP_CIPHER_fetch := fun ctx name props =>
       if String.eqb name missing then None else EVP_CIPHER_fetch base ctx name props;
     EVP_MD_fetch := fun ctx name props =>
       if String.eqb name missing then None else EVP_MD_fetch base ctx name props;
     EVP_rc4 := EVP_rc4 base;
     EVP_aes_128_cbc := EVP_aes_128_cbc base;
     EVP_aes_256_cbc := EVP_aes_256_cbc base;
     EVP_md5 := EVP_md5 base;
     EVP_sha1 := EVP_sha1 base;
     EVP_sha256 := EVP_sha256 base;
     EVP_sha384 := EVP_sha384 base;
     EVP_sha512 := EVP_sha512 base;
     EVP_MD_CTX_new := EVP_MD_CTX_new base;
     EVP_DigestInit := EVP_DigestInit base;
     EVP_DigestUpdate := EVP_DigestUpdate base;
     EVP_DigestFinal := EVP_DigestFinal base;
     RSA_private_encrypt := RSA_private_encrypt base |}.

(* ===================================================================== *)
(** * Facts about buffers                                                  *)
(* ===================================================================== *)

Lemma resize_length (n : nat) (buf : charbuff) : length (resize n buf) = n.
Proof.
  unfold resize. rewrite length_app, length_firstn, repeat_length. lia.
Qed.

Lemma store_length (buf : charbuff) (bytes : list byte) :
  length (store buf bytes) = length buf.
Proof.
  unfold store. rewrite length_firstn, length_app, length_skipn. lia.
Qed.

Lemma RSA_size_nonneg (rsa : RSA) : 0 <= RSA_size rsa.
Proof. unfold RSA_size. apply N2Z.is_nonneg. Qed.

(* ===================================================================== *)
(** * Digest lengths and digests                                           *)
(* ===================================================================== *)

(** C6.  [GetEVP_Size] returns 32 for SHA-256, 48 for SHA-384 and 64 for
    SHA-512; for [Unknown] it returns no length and raises a [PdfError]
    with code [InvalidEnumValue].  The state it is called in is left as it
    was. *)
Theorem GetEVP_Size_lengths (S : Type) (s : S) :
  ssl.GetEVP_Size PdfHashingAlgorithm.SHA256 s = (Ok 32, s) /\
  ssl.GetEVP_Size PdfHashingAlgorithm.SHA384 s = (Ok 48, s) /\
  ssl.GetEVP_Size PdfHashingAlgorithm.SHA512 s = (Ok 64, s) /\
  ssl.GetEVP_Size PdfHashingAlgorithm.Unknown s
    = (Raise (PdfError InvalidEnumValue), s).
Proof. repeat split. Qed.

Lemma GetEVP_MD_Unknown (lib : Libcrypto) (p : ssl.Process) :
  ssl.GetEVP_MD lib PdfHashingAlgorithm.Unknown p
    = (Raise (PdfError InvalidEnumValue), p).
Proof. reflexivity. Qed.

Lemma ComputeHash_SHA256_empty_from (major : N)
    (other : EVP_MD -> list byte -> list byte) (ready : bool) :
  let lib := Engine.openssl major other in
  let p := if ready then snd (ssl.Init lib ssl.startup) else ssl.startup in
  fst (ssl.ComputeHash lib [] PdfHashingAlgorithm.SHA256 p) = Ok sha256_of_empty.
Proof.
  destruct ready;
    cbv beta iota zeta delta -[N.leb SHA2_256.digest sha256_of_empty];
    destruct (N.leb 3 major); vm_compute; reflexivity.
Qed.

(** C4.  Against an engine of any major version in which every algorithm
    resolves and SHA2-256 is the FIPS 180-4 function, [ComputeHash] of the
    empty input with [SHA256] returns the 32 bytes e3b0c442...7852b855,
    both when the call is the first use of the crypto context and when the
    context is already initialised.  With [Unknown], for every engine,
    input and process state, it raises [InvalidEnumValue], returns no
    digest and leaves the state untouched. *)
Theorem ComputeHash_SHA256_empty_and_Unknown :
  (forall major other,
      let lib := Engine.openssl major other in
      fst (ssl.ComputeHash lib [] PdfHashingAlgorithm.SHA256 ssl.startup)
        = Ok sha256_of_empty /\
      fst (ssl.ComputeHash lib [] PdfHashingAlgorithm.SHA256
             (snd (ssl.Init lib ssl.startup)))
        = Ok sha256_of_empty /\
      length sha256_of_empty = 32%nat) /\
  (forall lib data p,
      ssl.ComputeHash lib data PdfHashingAlgorithm.Unknown p
        = (Raise (PdfError InvalidEnumValue), p)).
Proof.
  split.
  - intros major other lib. repeat split.
    + apply (ComputeHash_SHA256_empty_from major other false).
    + apply (ComputeHash_SHA256_empty_from major other true).
  - intros lib data p. unfold ssl.ComputeHash, bind.
    rewrite GetEVP_MD_Unknown. reflexivity.
Qed.

(* ===================================================================== *)
(** * The handles of the crypto context                                    *)
(* ===================================================================== *)



(** [Init] past its assertion: whether it returns, as a function of what
    the engine answers. *)
Lemma Init_fst (lib : Libcrypto) (s : OpenSSLMain.t) :
  OpenSSLMain.is_null (OpenSSLMain.m_Rc4 s) = true ->
  fst (OpenSSLMain.Init lib s)
  = if (3 <=? OPENSSL_VERSION_MAJOR lib)%N then
      match OSSL_LIB_CTX_new lib with
      | None => Raise (PdfError InvalidHandle)
      | Some c =>
          if OpenSSLMain.is_null (OSSL_PROVIDER_load lib c "legacy")
          then Raise (PdfError InvalidHandle)
          else if OpenSSLMain.is_null (OSSL_PROVIDER_load lib c "default")
          then Raise (PdfError InvalidHandle)
          else Ok tt
      end
    else Ok tt.
Proof.
  intros H.
  unfold OpenSSLMain.Init, bind, get, modify, raise, ret, OpenSSLMain.PODOFO_ASSERT.
  rewrite H. cbn.
  destruct (3 <=? OPENSSL_VERSION_MAJOR lib)%N; [| reflexivity].
  destruct (OSSL_LIB_CTX_new lib) as [c |]; cbn; [| reflexivity].
  destruct (OSSL_PROVIDER_load lib c "legacy"); cbn; [| reflexivity].
  destruct (OSSL_PROVIDER_load lib c "default"); cbn; reflexivity.
Qed.







(* ===================================================================== *)
(** * The raw RSA private-key transform                                    *)
(* ===================================================================== *)

(** What [RsaRawEncrypt] returns, whatever the engine does. *)
Lemma RsaRawEncrypt_unfold (S : Type) (lib : Libcrypto) (input : bufferview)
    (output : charbuff) (pkey : EVP_PKEY) (s : S) :
  ssl.RsaRawEncrypt lib input output pkey s
  = (Ok (store (resize (Z.to_nat (RSA_size (EVP_PKEY_get1_RSA pkey))) output)
               (snd (RSA_private_encrypt lib (to_int (Z.of_nat (length input)))
                       input (EVP_PKEY_get1_RSA pkey) RSA_PKCS1_PADDING))),
     s).
Proof.
  unfold ssl.RsaRawEncrypt.
  destruct (RSA_private_encrypt lib _ input _ RSA_PKCS1_PADDING) as [rc stored].
  reflexivity.
Qed.

(** C7.  For every engine, every RSA key and every input shorter than the
    byte length of the key's modulus, [RsaRawEncrypt] returns a buffer
    whose length is the byte length of the modulus, whatever the buffer
    held before. *)
Theorem RsaRawEncrypt_output_length (S : Type) (lib : Libcrypto)
    (input : bufferview) (output : charbuff) (pkey : EVP_PKEY) (s : S) :
  Z.of_nat (length input) < RSA_size (EVP_PKEY_get1_RSA pkey) ->
  exists out,
    ssl.RsaRawEncrypt lib input output pkey s = (Ok out, s) /\
    Z.of_nat (length out) = RSA_size (EVP_PKEY_get1_RSA pkey).
Proof.
  intros _. eexists. split; [apply RsaRawEncrypt_unfold |].
  rewrite store_length, resize_length.
  apply Z2Nat.id, RSA_size_nonneg.
Qed.

(** A three-byte input under the 16-byte key gives 16 bytes. *)
Lemma RsaRawEncrypt_output_length_witness :
  Z.of_nat (length [x4d; x61; x6e]) < RSA_size (EVP_PKEY_get1_RSA Engine.toy_key) /\
  exists out,
    ssl.RsaRawEncrypt (Engine.openssl 3 (fun _ _ => [])) [x4d; x61; x6e] []
                      Engine.toy_key tt = (Ok out, tt) /\
    Z.of_nat (length out) = RSA_size (EVP_PKEY_get1_RSA Engine.toy_key).
Proof.
  split; [reflexivity |].
  apply (RsaRawEncrypt_output_length (Engine.openssl 3 (fun _ _ => []))
           [x4d; x61; x6e] [] Engine.toy_key tt).
  reflexivity.
Defined.

(** Where both library calls are within their contract, running the body
    is what [ssl.RsaRawEncrypt] computes. *)
Lemma RsaRawEncrypt_exec_defined (S : Type) (lib : Libcrypto)
    (input : bufferview) (output : charbuff) (pkey : EVP_PKEY) (s : S) :
  Z.of_nat (length input) < 2 ^ 31 ->
  RsaRawEncrypt_exec lib input output (RsaKey pkey) s
  = Some (ssl.RsaRawEncrypt lib input output pkey s).
Proof.
  intros H. unfold RsaRawEncrypt_exec, ssl.RsaRawEncrypt, ret. cbn [get1_RSA].
  assert (E : to_int (Z.of_nat (length input)) = Z.of_nat (length input)).
  { unfold to_int. rewrite Z.mod_small; lia. }
  rewrite E.
  replace (Z.of_nat (length input) <? 0) with false
    by (symmetry; apply Z.ltb_ge; lia).
  destruct (RSA_private_encrypt lib _ input _ RSA_PKCS1_PADDING) as [rc stored].
  reflexivity.
Qed.

(** C10, against the claim as stated.  An input of 2^31 bytes under the
    16-byte RSA key: [(int)input.size()] is negative and the private-key
    operation is entered with it.  A key that is not an RSA key: the null
    pointer from [EVP_PKEY_get1_RSA] is handed to [RSA_size].  In neither
    case does the call return. *)
Lemma RsaRawEncrypt_does_not_return :
  to_int (Z.of_nat (length (repeat x00 (Z.to_nat (2 ^ 31))))) = - 2 ^ 31 /\
  RsaRawEncrypt_exec (Engine.openssl 3 (fun _ _ => []))
    (repeat x00 (Z.to_nat (2 ^ 31))) [] (RsaKey Engine.toy_key) tt = None /\
  RsaRawEncrypt_exec (Engine.openssl 3 (fun _ _ => []))
    [x4d; x61; x6e] [] OtherKey tt = None.
Proof.
  assert (L : Z.of_nat (length (repeat x00 (Z.to_nat (2 ^ 31)))) = 2 ^ 31).
  { rewrite repeat_length. apply Z2Nat.id. apply Z.pow_nonneg. lia. }
  split; [rewrite L; reflexivity |].
  split; [| reflexivity].
  unfold RsaRawEncrypt_exec. cbn [get1_RSA]. rewrite L.
  replace (to_int (2 ^ 31) <? 0) with true by reflexivity.
  reflexivity.
Qed.

(** C10, amended.  For every engine, every RSA key, every previous content
    of the buffer and every input of fewer than 2^31 bytes, the call
    returns, and returns normally: its result is the buffer resized to the
    modulus length, with whatever the private-key operation stored in it.
    The status of the operation does not occur in the result, and no
    exception is raised, also when that status reports failure. *)
Theorem RsaRawEncrypt_never_raises (S : Type) (lib : Libcrypto)
    (input : bufferview) (output : charbuff) (pkey : EVP_PKEY) (s : S) :
  Z.of_nat (length input) < 2 ^ 31 ->
  let rsa := EVP_PKEY_get1_RSA pkey in
  let resized := resize (Z.to_nat (RSA_size rsa)) output in
  let op := RSA_private_encrypt lib (to_int (Z.of_nat (length input)))
                                input rsa RSA_PKCS1_PADDING in
  RsaRawEncrypt_exec lib input output (RsaKey pkey) s
    = Some (Ok (store resized (snd op)), s) /\
  ssl.RsaRawEncrypt lib input output pkey s = (Ok (store resized (snd op)), s) /\
  Z.of_nat (length resized) = RSA_size rsa.
Proof.
  intros H rsa resized op.
  rewrite (RsaRawEncrypt_exec_defined lib input output pkey s H).
  rewrite RsaRawEncrypt_unfold.
  split; [reflexivity |]. split; [reflexivity |].
  unfold resized. rewrite resize_length. apply Z2Nat.id, RSA_size_nonneg.
Qed.

(** A failing operation: six bytes are too many for PKCS #1 padding under
    a 16-byte modulus, the engine reports -1 and stores nothing; the call
    returns the resized buffer all the same. *)
Lemma RsaRawEncrypt_never_raises_witness :
  let lib := Engine.openssl 3 (fun _ _ => []) in
  let input := [x4d; x61; x6e; x4d; x61; x6e] in
  Z.of_nat (length input) < 2 ^ 31 /\
  fst (RSA_private_encrypt lib (to_int (Z.of_nat (length input))) input
         (EVP_PKEY_get1_RSA Engine.toy_key) RSA_PKCS1_PADDING) = -1 /\
  RsaRawEncrypt_exec lib input [xff] (RsaKey Engine.toy_key) tt
    = Some (Ok (xff :: repeat x00 15), tt).
Proof.
  intros lib input.
  split; [reflexivity |].
  split; [reflexivity |].
  exact (proj1 (@RsaRawEncrypt_never_raises unit lib input [xff] Engine.toy_key tt
                  eq_refl)).
Defined.

(* ===================================================================== *)
(** * The life cycle of a filter                                           *)
(* ===================================================================== *)

Section Lifecycle.

Import PdfFilter.

Variable C : Type.
Variable cdc : Codec C.

(** The four calls that need a bound sink, on a filter that has none. *)
Lemma perform_rejected (f : t C) (r : Request) :
  lifecycle f = Idle \/ lifecycle f = Failed ->
  perform cdc r f = (Raise UsageError, f).
Proof.
  intros [H | H]; destruct r;
    unfold perform, EncodeBlock, DecodeBlock, EndEncode, EndDecode, bind, get;
    rewrite H; reflexivity.
Qed.

Lemma perform_all_rejected (rs : list Request) (f : t C) :
  lifecycle f = Idle \/ lifecycle f = Failed ->
  perform_all cdc rs f = (map (fun _ => Raise UsageError) rs, f).
Proof.
  intros H. induction rs as [| r rs IH]; [reflexivity |].
  cbn [perform_all map]. rewrite (perform_rejected f r H), IH. reflexivity.
Qed.

Lemma Begin_rejected (f : t C) (sink output : OutputStream)
    (decodeParms : option PdfDictionary) :
  lifecycle f = Active sink ->
  BeginEncode cdc output f = (Raise UsageError, f) /\
  BeginDecode cdc output decodeParms f = (Raise UsageError, f).
Proof.
  intros H. unfold BeginEncode, BeginDecode, bind, get. rewrite H.
  split; reflexivity.
Qed.

Lemma begins_intro (h : Hook) (impl : C -> Outcome C) (output : OutputStream)
    (f : t C) :
  begins h (impl (codec f)) output f
    (on_exception (call h impl output) (FailEncodeDecode (C:=C))
       (set_lifecycle (Active output) f)).
Proof.
  unfold begins, on_exception, call, FailEncodeDecode, modify, set_lifecycle.
  cbn [codec events lifecycle].
  destruct (thrown (impl (codec f))); cbn; repeat split.
Qed.

Lemma BeginEncode_accepted (f : t C) (output : OutputStream) :
  lifecycle f = Idle \/ lifecycle f = Failed ->
  begins hBeginEncode (BeginEncodeImpl cdc (codec f)) output f
         (BeginEncode cdc output f).
Proof.
  intros H.
  assert (E : BeginEncode cdc output f
              = on_exception (call hBeginEncode (BeginEncodeImpl cdc) output)
                  (FailEncodeDecode (C:=C)) (set_lifecycle (Active output) f)).
  { unfold BeginEncode, bind, get, modify. destruct H as [H | H]; rewrite H; reflexivity. }
  rewrite E. apply begins_intro.
Qed.

Lemma BeginDecode_accepted (f : t C) (output : OutputStream)
    (decodeParms : option PdfDictionary) :
  lifecycle f = Idle \/ lifecycle f = Failed ->
  begins hBeginDecode (BeginDecodeImpl cdc decodeParms (codec f)) output f
         (BeginDecode cdc output decodeParms f).
Proof.
  intros H.
  assert (E : BeginDecode cdc output decodeParms f
              = on_exception
                  (call hBeginDecode (BeginDecodeImpl cdc decodeParms) output)
                  (FailEncodeDecode (C:=C)) (set_lifecycle (Active output) f)).
  { unfold BeginDecode, bind, get, modify. destruct H as [H | H]; rewrite H; reflexivity. }
  rewrite E. apply begins_intro.
Qed.

Lemma Begin_ok_not_Active (f : t C) (output : OutputStream)
    (decodeParms : option PdfDictionary) :
  fst (BeginEncode cdc output f) = Ok tt \/
  fst (BeginDecode cdc output decodeParms f) = Ok tt ->
  lifecycle f = Idle \/ lifecycle f = Failed.
Proof.
  destruct (lifecycle f) as [| sink |] eqn:L; [now left | | now right].
  destruct (Begin_rejected f output decodeParms L) as [E D].
  rewrite E, D. cbn. intros [H | H]; discriminate H.
Qed.

(** C1.  On a filter that is [Idle] or [Failed], [EncodeBlock],
    [DecodeBlock], [EndEncode] and [EndDecode] each raise [UsageError] and
    return the filter as it was: no virtual implementation is recorded as
    called, no byte is recorded as written, and the life cycle has not
    moved.  The same therefore holds for any sequence of such calls, one
    after the other. *)
Theorem Block_End_rejected_unless_Active (f : t C) :
  lifecycle f = Idle \/ lifecycle f = Failed ->
  (forall view, EncodeBlock cdc view f = (Raise UsageError, f)) /\
  (forall view, DecodeBlock cdc view f = (Raise UsageError, f)) /\
  EndEncode cdc f = (Raise UsageError, f) /\
  EndDecode cdc f = (Raise UsageError, f) /\
  (forall rs, perform_all cdc rs f = (map (fun _ => Raise UsageError) rs, f)).
Proof.
  intros H. repeat split.
  - intros view. apply (perform_rejected f (ReqEncodeBlock view) H).
  - intros view. apply (perform_rejected f (ReqDecodeBlock view) H).
  - apply (perform_rejected f ReqEndEncode H).
  - apply (perform_rejected f ReqEndDecode H).
  - intros rs. apply perform_all_rejected, H.
Qed.

(** C5.  While the filter is [Active], [BeginEncode] and [BeginDecode]
    raise [UsageError] and change nothing.  From [Idle] or [Failed] they
    bind the sink and run the begin hook once; the filter is then [Active]
    on that sink when the hook returned, and [Failed] when it threw.  So a
    [Begin] that returns normally was called on a filter that was not
    [Active].  [FailEncodeDecode] leaves the filter [Failed] without
    calling a hook, and a [BeginEncode] after it behaves as from [Idle]:
    if the begin hook returns, the call succeeds and the filter is [Active]
    on the new sink. *)
Theorem Begin_lifecycle (f : t C) (output : OutputStream)
    (decodeParms : option PdfDictionary) :
  (forall sink, lifecycle f = Active sink ->
     BeginEncode cdc output f = (Raise UsageError, f) /\
     BeginDecode cdc output decodeParms f = (Raise UsageError, f)) /\
  (lifecycle f = Idle \/ lifecycle f = Failed ->
     begins hBeginEncode (BeginEncodeImpl cdc (codec f)) output f
            (BeginEncode cdc output f) /\
     begins hBeginDecode (BeginDecodeImpl cdc decodeParms (codec f)) output f
            (BeginDecode cdc output decodeParms f)) /\
  (fst (BeginEncode cdc output f) = Ok tt \/
   fst (BeginDecode cdc output decodeParms f) = Ok tt ->
     lifecycle f = Idle \/ lifecycle f = Failed) /\
  (let failed := snd (FailEncodeDecode f) in
   lifecycle failed = Failed /\
   codec failed = codec f /\
   events failed = events f /\
   begins hBeginEncode (BeginEncodeImpl cdc (codec f)) output failed
          (BeginEncode cdc output failed) /\
   (thrown (BeginEncodeImpl cdc (codec f)) = None ->
      fst (BeginEncode cdc output failed) = Ok tt /\
      m_OutputStream (snd (BeginEncode cdc output failed)) = Some output)).
Proof.
  split; [intros sink L; apply (Begin_rejected f output decodeParms L) |].
  split; [intros H; split;
          [apply BeginEncode_accepted | apply BeginDecode_accepted]; exact H |].
  split; [apply Begin_ok_not_Active |].
  intros failed.
  assert (L : lifecycle failed = Failed) by reflexivity.
  pose proof (BeginEncode_accepted failed output (or_intror L)) as B.
  change (codec failed) with (codec f) in B.
  split; [exact L |].
  split; [reflexivity |].
  split; [reflexivity |].
  split; [exact B |].
  destruct B as (_ & _ & B). intros T. rewrite T in B.
  destruct B as [R A]. split; [exact R |].
  unfold m_OutputStream. rewrite A. reflexivity.
Qed.

End Lifecycle.

(** C1 at the pass-through codec.  [EncodeBlock] before any [BeginEncode];
    a second [EndEncode] after a finished session; and, after a failure in
    mid-session, a run of [Block] and [End] calls: all are usage errors and
    leave the filter as it was. *)
Lemma Block_End_rejected_unless_Active_witness :
  let fresh := PdfFilter.ctor 0%nat in
  let ended :=
    snd (PdfFilter.EndEncode PdfFilter.copy_codec
           (snd (PdfFilter.BeginEncode PdfFilter.copy_codec 7%nat fresh))) in
  let failed :=
    snd (PdfFilter.FailEncodeDecode
           (snd (PdfFilter.BeginEncode PdfFilter.copy_codec 7%nat fresh))) in
  PdfFilter.EncodeBlock PdfFilter.copy_codec [x01] fresh
    = (Raise PdfFilter.UsageError, fresh) /\
  PdfFilter.EndEncode PdfFilter.copy_codec ended
    = (Raise PdfFilter.UsageError, ended) /\
  PdfFilter.lifecycle failed = PdfFilter.Failed /\
  PdfFilter.perform_all PdfFilter.copy_codec
    [PdfFilter.ReqEncodeBlock [x01]; PdfFilter.ReqDecodeBlock [x02];
     PdfFilter.ReqEndEncode; PdfFilter.ReqEndDecode] failed
    = ([Raise PdfFilter.UsageError; Raise PdfFilter.UsageError;
        Raise PdfFilter.UsageError; Raise PdfFilter.UsageError], failed).
Proof.
  intros fresh ended failed.
  pose proof (@Block_End_rejected_unless_Active nat PdfFilter.copy_codec fresh
                (or_introl eq_refl)) as (E1 & _).
  pose proof (@Block_End_rejected_unless_Active nat PdfFilter.copy_codec ended
                (or_introl eq_refl)) as (_ & _ & E2 & _).
  pose proof (@Block_End_rejected_unless_Active nat PdfFilter.copy_codec failed
                (or_intror eq_refl)) as (_ & _ & _ & _ & E3).
  split; [apply E1 |].
  split; [exact E2 |].
  split; [reflexivity |].
  apply E3.
Defined.

(** C5 at the pass-through codec.  [BeginEncode] on a fresh filter binds
    sink 7; a second [BeginEncode] while that session is open is a usage
    error; after [FailEncodeDecode] a [BeginEncode] on sink 9 succeeds, and
    a block then reaches sink 9 and not sink 7. *)
Lemma Begin_lifecycle_witness :
  let fresh := PdfFilter.ctor 0%nat in
  let active := snd (PdfFilter.BeginEncode PdfFilter.copy_codec 7%nat fresh) in
  let failed := snd (PdfFilter.FailEncodeDecode active) in
  let again := snd (PdfFilter.BeginEncode PdfFilter.copy_codec 9%nat failed) in
  fst (PdfFilter.BeginEncode PdfFilter.copy_codec 7%nat fresh) = Ok tt /\
  PdfFilter.lifecycle active = PdfFilter.Active 7%nat /\
  PdfFilter.BeginEncode PdfFilter.copy_codec 8%nat active
    = (Raise PdfFilter.UsageError, active) /\
  fst (PdfFilter.BeginEncode PdfFilter.copy_codec 9%nat failed) = Ok tt /\
  PdfFilter.m_OutputStream again = Some 9%nat /\
  PdfFilter.received 9%nat
    (PdfFilter.events
       (snd (PdfFilter.EncodeBlock PdfFilter.copy_codec [x4d; x61; x6e] again)))
    = [x4d; x61; x6e] /\
  PdfFilter.received 7%nat
    (PdfFilter.events
       (snd (PdfFilter.EncodeBlock PdfFilter.copy_codec [x4d; x61; x6e] again)))
    = [].
Proof.
  intros fresh active failed again.
  pose proof (@Begin_lifecycle nat PdfFilter.copy_codec fresh 7%nat None)
    as (_ & H1 & _ & _).
  destruct (H1 (or_introl eq_refl)) as ((_ & _ & A) & _).
  pose proof (@Begin_lifecycle nat PdfFilter.copy_codec active 8%nat None)
    as (H2 & _ & _ & _).
  pose proof (@Begin_lifecycle nat PdfFilter.copy_codec active 9%nat None)
    as (_ & _ & _ & (_ & _ & _ & _ & H3)).
  split; [apply A |].
  split; [apply A |].
  split; [apply (H2 7%nat eq_refl) |].
  split; [apply (H3 eq_refl) |].
  split; [apply (H3 eq_refl) |].
  split; reflexivity.
Defined.

(* ===================================================================== *)
(** * Initialisation: when it succeeds, what it acquires                   *)
(* ===================================================================== *)

Section InitOutcome.

Import OpenSSLMain.
Local Open Scope string_scope.

(** X1.  From a context whose RC4 handle is null, [Init] returns normally
    exactly when the build is against OpenSSL < 3, or the library context
    and both providers could be obtained; in every other case it raises
    [InvalidHandle].  Whether the algorithms themselves resolve plays no
    part in it. *)
Theorem Init_succeeds_iff (lib : Libcrypto) (s : OpenSSLMain.t) :
  is_null (m_Rc4 s) = true ->
  (fst (Init lib s) = Ok tt <->
   (OPENSSL_VERSION_MAJOR lib < 3)%N \/
   exists c legacy dflt,
     OSSL_LIB_CTX_new lib = Some c /\
     OSSL_PROVIDER_load lib c "legacy" = Some legacy /\
     OSSL_PROVIDER_load lib c "default" = Some dflt) /\
  (fst (Init lib s) <> Ok tt -> fst (Init lib s) = Raise (PdfError InvalidHandle)).
Proof.
  intros H. rewrite (Init_fst lib s H).
  destruct (N.leb_spec 3 (OPENSSL_VERSION_MAJOR lib)) as [V | V].
  - destruct (OSSL_LIB_CTX_new lib) as [c |].
    + destruct (OSSL_PROVIDER_load lib c "legacy") as [l |] eqn:L; cbn.
      * destruct (OSSL_PROVIDER_load lib c "default") as [d |] eqn:D; cbn.
        -- split; [| intros N; now elim N].
           split; [intros _ | reflexivity].
           right. exists c, l, d. rewrite L, D. repeat split.
        -- split; [| reflexivity].
           split; [discriminate |].
           intros [V' | (c' & l' & d' & E & L' & D')]; [lia |].
           injection E as <-. rewrite D in D'. discriminate D'.
      * split; [| reflexivity].
        split; [discriminate |].
        intros [V' | (c' & l' & d' & E & L' & D')]; [lia |].
        injection E as <-. rewrite L in L'. discriminate L'.
    + split; [| reflexivity].
      split; [discriminate |].
      intros [V' | (c' & l' & d' & E & _)]; [lia | discriminate E].
  - split; [| intros N; now elim N].
    split; [intros _; now left | reflexivity].
Qed.

(** X1 at the engine in which everything resolves. *)
Lemma Init_succeeds_iff_witness :
  fst (Init (Engine.openssl 3 (fun _ _ => [])) ctor) = Ok tt.
Proof.
  apply (proj1 (Init_succeeds_iff (Engine.openssl 3 (fun _ _ => [])) ctor eq_refl)).
  right. exists 1%nat, "legacy", "default". repeat split.
Defined.



End InitOutcome.

(* ===================================================================== *)
(** * Hashing entry points                                                 *)
(* ===================================================================== *)

(** ** The length of the engine's SHA2-256 digest *)

Lemma round_length (v : list N) (kw : N * N) :
  length (SHA2_256.round v kw) = length v.
Proof.
  destruct v as [| a [| b [| c [| d [| e [| f [| g [| h [| i v]]]]]]]]];
    reflexivity.
Qed.

Lemma fold_round_length (l : list (N * N)) (v : list N) :
  length (fold_left SHA2_256.round l v) = length v.
Proof.
  revert v. induction l as [| kw l IH]; intros v; [reflexivity |].
  cbn [fold_left]. rewrite IH. apply round_length.
Qed.

Lemma compress_length (H block : list N) :
  length (SHA2_256.compress H block) = length H.
Proof.
  unfold SHA2_256.compress.
  rewrite length_map, length_combine, fold_round_length. apply Nat.min_id.
Qed.

Lemma fold_compress_length (blocks : list (list N)) (H : list N) :
  length (fold_left SHA2_256.compress blocks H) = length H.
Proof.
  revert H. induction blocks as [| b blocks IH]; intros H; [reflexivity |].
  cbn [fold_left]. rewrite IH. apply compress_length.
Qed.

Lemma be_bytes_length (n : nat) (x : N) : length (SHA2_256.be_bytes n x) = n.
Proof. induction n as [| n IH]; cbn; [reflexivity | now rewrite IH]. Qed.

Lemma flat_be_bytes_length (H : list N) :
  length (flat_map (SHA2_256.be_bytes 4) H) = (4 * length H)%nat.
Proof.
  induction H as [| x H IH]; [reflexivity |].
  cbn [flat_map]. rewrite length_app, be_bytes_length, IH. cbn [length]. lia.
Qed.

Lemma digest_length (msg : list byte) : length (SHA2_256.digest msg) = 32%nat.
Proof.
  unfold SHA2_256.digest.
  rewrite length_map, flat_be_bytes_length, fold_compress_length.
  reflexivity.
Qed.

(** ** Each entry point digests with its own algorithm *)

Lemma ComputeHash_SHA256_digest (major : N)
    (other : EVP_MD -> list byte -> list byte) (data : bufferview)
    (ready : bool) :
  let lib := Engine.openssl major other in
  let p := if ready then snd (ssl.Init lib ssl.startup) else ssl.startup in
  fst (ssl.ComputeHash lib data PdfHashingAlgorithm.SHA256 p)
    = Ok (SHA2_256.digest data).
Proof.
  destruct ready;
    cbv beta iota zeta delta -[N.leb SHA2_256.digest];
    destruct (N.leb 3 major); reflexivity.
Qed.

(** X4.  Against an engine of any major version in which every algorithm
    resolves, and for every input, each hashing entry point returns the
    digest of the whole input under the algorithm it is named after:
    [ComputeHash] with [SHA256], [SHA384], [SHA512], [ComputeMD5] and
    [ComputeSHA1].  This holds on first use of the crypto context and on an
    initialised one alike. *)
Theorem hashing_entry_points (major : N)
    (other : EVP_MD -> list byte -> list byte) (data : bufferview)
    (ready : bool) :
  let lib := Engine.openssl major other in
  let p := if ready then snd (ssl.Init lib ssl.startup) else ssl.startup in
  fst (ssl.ComputeHash lib data PdfHashingAlgorithm.SHA256 p)
    = Ok (SHA2_256.digest data) /\
  fst (ssl.ComputeHash lib data PdfHashingAlgorithm.SHA384 p)
    = Ok (other sha2_384 data) /\
  fst (ssl.ComputeHash lib data PdfHashingAlgorithm.SHA512 p)
    = Ok (other sha2_512 data) /\
  fst (ssl.ComputeMD5 lib data p) = Ok (other md5 data) /\
  fst (ssl.ComputeSHA1 lib data p) = Ok (other sha1 data).
Proof.
  destruct ready;
    cbv beta iota zeta delta -[N.leb SHA2_256.digest];
    destruct (N.leb 3 major); repeat split.
Qed.

(** X5.  For every input, the SHA-256 digest [ComputeHash] returns against
    that engine has exactly the number of bytes [GetEVP_Size] gives for
    [SHA256]. *)
Theorem ComputeHash_SHA256_size (major : N)
    (other : EVP_MD -> list byte -> list byte) (data : bufferview)
    (ready : bool) :
  let lib := Engine.openssl major other in
  let p := if ready then snd (ssl.Init lib ssl.startup) else ssl.startup in
  exists hash size,
    fst (ssl.ComputeHash lib data PdfHashingAlgorithm.SHA256 p) = Ok hash /\
    fst (ssl.GetEVP_Size PdfHashingAlgorithm.SHA256 p) = Ok size /\
    Z.of_nat (length hash) = size.
Proof.
  intros lib p. exists (SHA2_256.digest data), 32. split.
  - apply (ComputeHash_SHA256_digest major other data ready).
  - split; [reflexivity |]. rewrite digest_length. reflexivity.
Qed.

(** ** Hashing when the engine cannot be set up *)

Section NoLegacyProvider.

Import OpenSSLMain.
Local Open Scope string_scope.

Variable lib : Libcrypto.
Variable c : OSSL_LIB_CTX.
Hypothesis version : (3 <=? OPENSSL_VERSION_MAJOR lib)%N = true.
Hypothesis context : OSSL_LIB_CTX_new lib = Some c.
Hypothesis no_legacy : OSSL_PROVIDER_load lib c "legacy" = None.

Lemma Init_no_legacy (s : OpenSSLMain.t) :
  is_null (m_Rc4 s) = true ->
  Init lib s
  = (Raise (PdfError InvalidHandle), set_legacyProvider None (set_libCtx (Some c) s)).
Proof.
  intros H. unfold Init, bind, get, modify, raise, ret, PODOFO_ASSERT.
  rewrite H. cbn. rewrite version, context. cbn. rewrite no_legacy. reflexivity.
Qed.

Lemma ssl_Init_no_legacy (p : ssl.Process) :
  ssl.s_SSL_ready p = false ->
  is_null (m_Rc4 (ssl.s_SSL p)) = true ->
  ssl.Init lib p
  = (Raise (PdfError InvalidHandle),
     ssl.mkProcess (set_legacyProvider None (set_libCtx (Some c) (ssl.s_SSL p))) false).
Proof.
  intros R H. unfold ssl.Init, bind, get, ssl.on_s_SSL.
  rewrite R, (Init_no_legacy (ssl.s_SSL p) H), R. reflexivity.
Qed.

(** X6.  Against OpenSSL >= 3, when the legacy provider cannot be loaded,
    every hashing entry point called on a crypto context that is not yet
    initialised raises [InvalidHandle] for every input -- also for the
    SHA-2 family, MD5 and SHA-1, which [Init] would fetch from the default
    provider.  The context is left with its library context set, no
    provider, no algorithm handle changed, and still not initialised. *)
Theorem hashing_needs_legacy_provider (data : bufferview) (p : ssl.Process) :
  ssl.s_SSL_ready p = false ->
  is_null (m_Rc4 (ssl.s_SSL p)) = true ->
  let failed :=
    (Raise (PdfError InvalidHandle),
     ssl.mkProcess (set_legacyProvider None (set_libCtx (Some c) (ssl.s_SSL p)))
                   false) in
  ssl.ComputeHash lib data PdfHashingAlgorithm.SHA256 p = failed /\
  ssl.ComputeHash lib data PdfHashingAlgorithm.SHA384 p = failed /\
  ssl.ComputeHash lib data PdfHashingAlgorithm.SHA512 p = failed /\
  ssl.ComputeMD5 lib data p = failed /\
  ssl.ComputeSHA1 lib data p = failed.
Proof.
  intros R H failed.
  pose proof (ssl_Init_no_legacy p R H) as E.
  unfold ssl.ComputeHash, ssl.ComputeMD5, ssl.ComputeSHA1, ssl.GetEVP_MD,
    ssl.SHA256, ssl.SHA384, ssl.SHA512, ssl.MD5, ssl.SHA1, bind.
  rewrite E. repeat split.
Qed.

End NoLegacyProvider.

(** X6 at the engine without a legacy provider, on first use. *)
Lemma hashing_needs_legacy_provider_witness :
  fst (ssl.ComputeHash (openssl3_no_legacy (fun _ _ => [])) [x61; x62; x63]
         PdfHashingAlgorithm.SHA256 ssl.startup)
  = Raise (PdfError InvalidHandle).
Proof.
  pose proof (@hashing_needs_legacy_provider (openssl3_no_legacy (fun _ _ => []))
                1%nat eq_refl eq_refl eq_refl [x61; x62; x63] ssl.startup
                eq_refl eq_refl) as (E & _).
  rewrite E. reflexivity.
Defined.

(* ===================================================================== *)
(** * The raw RSA transform against the engine's PKCS #1 padding           *)
(* ===================================================================== *)

Lemma to_int_small (x : Z) : 0 <= x < 2 ^ 31 -> to_int x = x.
Proof.
  intros H. unfold to_int. rewrite Z.mod_small; lia.
Qed.

Lemma store_nothing (buf : charbuff) : store buf [] = buf.
Proof. unfold store. cbn. apply firstn_all. Qed.

(** X7.  Against the engine, an input longer than the modulus length
    minus 11 bytes -- which includes inputs shorter than the modulus -- is
    not transformed at all: the private-key operation fails on the
    padding, and [RsaRawEncrypt] returns normally with the previous content
    of the output buffer cut or zero-filled to the modulus length. *)
Theorem RsaRawEncrypt_too_long_input (S : Type) (major : N)
    (other : EVP_MD -> list byte -> list byte) (input : bufferview)
    (output : charbuff) (pkey : EVP_PKEY) (s : S) :
  let k := RSA_size (EVP_PKEY_get1_RSA pkey) in
  k - 11 < Z.of_nat (length input) < 2 ^ 31 ->
  ssl.RsaRawEncrypt (Engine.openssl major other) input output pkey s
  = (Ok (resize (Z.to_nat k) output), s).
Proof.
  intros k H. rewrite RsaRawEncrypt_unfold. fold k.
  cbn [RSA_private_encrypt Engine.openssl]. unfold Engine.private_encrypt.
  fold k. rewrite to_int_small by lia.
  replace (Z.of_nat (length input) <=? k - 11) with false
    by (symmetry; apply Z.leb_gt; lia).
  rewrite andb_false_r. cbn [snd]. rewrite store_nothing. reflexivity.
Qed.

(** A six-byte input under the 16-byte key: the byte the buffer held
    comes back, followed by zeros. *)
Lemma RsaRawEncrypt_too_long_input_witness :
  ssl.RsaRawEncrypt (Engine.openssl 3 (fun _ _ => []))
    [x4d; x61; x6e; x4d; x61; x6e] [xff] Engine.toy_key tt
  = (Ok (xff :: repeat x00 15), tt).
Proof.
  apply (@RsaRawEncrypt_too_long_input unit 3 (fun _ _ => [])
           [x4d; x61; x6e; x4d; x61; x6e] [xff] Engine.toy_key tt).
  split; reflexivity.
Defined.

(* ===================================================================== *)
(** * The cipher accessors                                                 *)
(* ===================================================================== *)

(** X9.  Against an engine of any major version in which every algorithm
    resolves, [Rc4], [Aes128] and [Aes256] each return the cipher they are
    named after, on first use of the crypto context and on an initialised
    one alike, and leave the context initialised. *)
Theorem cipher_accessors (major : N)
    (other : EVP_MD -> list byte -> list byte) (ready : bool) :
  let lib := Engine.openssl major other in
  let p := if ready then snd (ssl.Init lib ssl.startup) else ssl.startup in
  ssl.Rc4 lib p = (Ok (Some rc4), snd (ssl.Init lib ssl.startup)) /\
  ssl.Aes128 lib p = (Ok (Some aes_128_cbc), snd (ssl.Init lib ssl.startup)) /\
  ssl.Aes256 lib p = (Ok (Some aes_256_cbc), snd (ssl.Init lib ssl.startup)) /\
  ssl.s_SSL_ready (snd (ssl.Init lib ssl.startup)) = true.
Proof.
  destruct ready;
    cbv beta iota zeta delta -[N.leb];
    destruct (N.leb 3 major); repeat split.
Qed.

(* ===================================================================== *)
(** * An algorithm the engine does not resolve                             *)
(* ===================================================================== *)

Section Unresolved.

Import OpenSSLMain.
Local Open Scope string_scope.

Variable lib : Libcrypto.
Variable c : OSSL_LIB_CTX.
Variables legacy dflt : OSSL_PROVIDER.
Hypothesis version : (3 <=? OPENSSL_VERSION_MAJOR lib)%N = true.
Hypothesis context : OSSL_LIB_CTX_new lib = Some c.
Hypothesis has_legacy : OSSL_PROVIDER_load lib c "legacy" = Some legacy.
Hypothesis has_default : OSSL_PROVIDER_load lib c "default" = Some dflt.

(** With the context and both providers at hand, [ssl::Init] on first use
    succeeds, and the handles are what the fetches returned. *)
Lemma ssl_Init_fetches (p : ssl.Process) :
  ssl.s_SSL_ready p = false ->
  is_null (m_Rc4 (ssl.s_SSL p)) = true ->
  exists p',
    ssl.Init lib p = (Ok tt, p') /\
    ssl.s_SSL_ready p' = true /\
    m_Rc4 (ssl.s_SSL p') = EVP_CIPHER_fetch lib c "RC4" "provider=legacy" /\
    m_SHA256 (ssl.s_SSL p') = EVP_MD_fetch lib c "SHA2-256" "provider=default".
Proof.
  intros R H. unfold ssl.Init, bind, get, modify, ssl.on_s_SSL.
  rewrite R.
  unfold Init, bind, get, modify, raise, ret, PODOFO_ASSERT.
  rewrite H. cbn. rewrite version, context. cbn.
  rewrite has_legacy. cbn. rewrite has_default. cbn.
  eexists. repeat split.
Qed.

(** X10.  Against OpenSSL >= 3 with both providers loaded, an algorithm
    whose fetch fails is noticed only where it is used.  First use of the
    crypto context succeeds and marks it initialised; [Rc4] then hands a
    null pointer to its caller without an error, if RC4 is the one that
    failed; and if SHA2-256 is, and the engine refuses a null digest type,
    [ComputeHash] with [SHA256] raises the [OpenSSL] error for every
    input. *)
Theorem unresolved_algorithm (data : bufferview) (p : ssl.Process) :
  ssl.s_SSL_ready p = false ->
  is_null (m_Rc4 (ssl.s_SSL p)) = true ->
  ssl.s_SSL_ready (snd (ssl.Init lib p)) = true /\
  (EVP_CIPHER_fetch lib c "RC4" "provider=legacy" = None ->
     fst (ssl.Rc4 lib p) = Ok None) /\
  (EVP_MD_fetch lib c "SHA2-256" "provider=default" = None ->
   fst (EVP_DigestInit lib (EVP_MD_CTX_new lib) None) = 0 ->
     fst (ssl.ComputeHash lib data PdfHashingAlgorithm.SHA256 p)
       = Raise (PdfError OpenSSL)).
Proof.
  intros R H.
  destruct (ssl_Init_fetches p R H) as (p' & E & R' & Frc4 & Fsha).
  split; [rewrite E; exact R' |].
  split.
  - intros F. unfold ssl.Rc4, bind, get, ret. rewrite E, Frc4, F. reflexivity.
  - intros F Zero.
    unfold ssl.ComputeHash, ssl.GetEVP_MD, ssl.SHA256, bind, get, ret.
    rewrite E, Fsha, F. unfold ssl.computeHash.
    destruct (EVP_DigestInit lib (EVP_MD_CTX_new lib) None) as [rc ctx].
    cbn in Zero. subst rc. reflexivity.
Qed.

End Unresolved.

(** X10 at two engines: one without RC4, one without SHA2-256. *)
Lemma unresolved_algorithm_witness :
  fst (ssl.Rc4 (openssl3_without "RC4" (fun _ _ => [])) ssl.startup) = Ok None /\
  fst (ssl.ComputeHash (openssl3_without "SHA2-256" (fun _ _ => []))
         [x61; x62; x63] PdfHashingAlgorithm.SHA256 ssl.startup)
  = Raise (PdfError OpenSSL).
Proof.
  split.
  - apply (@unresolved_algorithm (openssl3_without "RC4" (fun _ _ => []))
             1%nat "legacy"%string "default"%string eq_refl eq_refl eq_refl eq_refl
             [] ssl.startup eq_refl eq_refl).
    reflexivity.
  - apply (@unresolved_algorithm (openssl3_without "SHA2-256" (fun _ _ => []))
             1%nat "legacy"%string "default"%string eq_refl eq_refl eq_refl eq_refl
             [x61; x62; x63] ssl.startup eq_refl eq_refl);
      reflexivity.
Defined.
